(** * VascularAI dashboard backend ([backend/main.py])

    A shallow embedding of the FastAPI module: its two mock tables, its five
    route handlers and the dispatch of a request to its handler, followed by
    the properties of the HTTP surface.

    Conventions of the embedding.
    - A Python [str] is a [string], an [int] is a [Z], [None] in an optional
      field is [None].
    - A Python [float] literal is embedded as the exact rational its decimal
      digits denote ([0.92] is [92 # 100]); nothing in the module computes with
      these numbers, they are only stored and returned.
    - The dict literals that all carry the same keys (a patient row, a metric
      entry, the fixed payloads) are records with one field per key; the dict
      [metrics_data], which is used as a map from patient id to entries, is a
      [gmap string].
    - The module-level tables are Python globals: handlers receive them as an
      explicit [Tables] value and the dispatcher threads that value from one
      request to the next. *)

From Stdlib Require Import QArith.
From stdpp Require Import gmap strings list fin_maps.

Close Scope Q_scope.
Open Scope string_scope.

(** ** Data model *)

(** One row of [patients_data]. *)
Module Patient.
Record t : Type := Build {
  id : string;
  name : string;
  age : Z;
  status : string;
  inferenceTime : option Q;
  result : string;
  date : string
}.
End Patient.

(** One element of a value of [metrics_data]. *)
Record MetricEntry : Type := {
  metric : string;
  value : Q
}.

(** The body [{"error": ...}] of the not-found branch. *)
Record ErrorPayload : Type := {
  error : string
}.

(** The body returned by [root]. *)
Module Root.
Record t : Type := Build {
  message : string;
  status : string
}.
End Root.

(** The body returned by [get_status]. *)
Module Status.
Record t : Type := Build {
  patientId : string;
  progress : Z;
  stage : string;
  message : string
}.
End Status.

(** The body returned by [get_server_status]. *)
Module Server.
Record t : Type := Build {
  online : bool;
  version : string;
  gpu : string;
  modelVersion : string
}.
End Server.

(** ** Mock data *)

Definition patients_data : list Patient.t := [
  Patient.Build "Patient_001" "John Doe" 65 "completed" (Some 4.2%Q) "Success" "2026-02-28";
  Patient.Build "Patient_002" "Jane Smith" 72 "completed" (Some 3.8%Q) "Success" "2026-02-28";
  Patient.Build "Patient_003" "Robert Chen" 58 "processing" None "Processing" "2026-03-01";
  Patient.Build "Patient_004" "Maria Garcia" 61 "completed" (Some 5.1%Q) "Failed" "2026-02-27";
  Patient.Build "Patient_005" "David Kim" 55 "completed" (Some 3.5%Q) "Success" "2026-02-27";
  Patient.Build "Patient_006" "Sarah Wilson" 68 "queued" None "Queued" "2026-03-01"
].

(** The key/value pairs of the dict literal, in the order they are written. *)
Definition metrics_items : list (string * list MetricEntry) := [
  ("Patient_001", [
     {| metric := "clDice"; value := 0.92%Q |};
     {| metric := "Dice Score"; value := 0.88%Q |};
     {| metric := "IoU"; value := 0.81%Q |} ]);
  ("Patient_002", [
     {| metric := "clDice"; value := 0.89%Q |};
     {| metric := "Dice Score"; value := 0.85%Q |};
     {| metric := "IoU"; value := 0.78%Q |} ]);
  ("Patient_004", [
     {| metric := "clDice"; value := 0.45%Q |};
     {| metric := "Dice Score"; value := 0.38%Q |};
     {| metric := "IoU"; value := 0.30%Q |} ]);
  ("Patient_005", [
     {| metric := "clDice"; value := 0.95%Q |};
     {| metric := "Dice Score"; value := 0.91%Q |};
     {| metric := "IoU"; value := 0.85%Q |} ])
].

Definition metrics_data : gmap string (list MetricEntry) :=
  list_to_map metrics_items.

(** The module globals the handlers read. *)
Record Tables : Type := {
  patients : list Patient.t;
  metrics : gmap string (list MetricEntry)
}.

(** The globals once the module has been imported. *)
Definition startup : Tables :=
  {| patients := patients_data; metrics := metrics_data |}.

(** ** Handlers *)

(** What a handler hands back to the framework: a body to serialise, or an
    exception that escaped the function. *)
Inductive Outcome (A : Type) : Type :=
  | Returns (body : A)
  | Raises (exc : string).
Arguments Returns {A} body.
Arguments Raises {A} exc.

(** [get_metrics] has two shapes of body. *)
Inductive MetricsBody : Type :=
  | Entries (entries : list MetricEntry)
  | ErrorObject (payload : ErrorPayload).

Definition not_found : MetricsBody :=
  ErrorObject {| error := "Patient not found" |}.

(** [metrics_data[patient_id]]: subscripting a dict raises [KeyError] on a
    missing key. *)
Definition subscript (d : gmap string (list MetricEntry)) (key : string)
    : Outcome (list MetricEntry) :=
  match d !! key with
  | Some entries => Returns entries
  | None => Raises "KeyError"
  end.

Definition root (T : Tables) : Outcome Root.t :=
  Returns (Root.Build "VascularAI API v1.2.0" "online").

Definition get_patients (T : Tables) : Outcome (list Patient.t) :=
  Returns (patients T).

Definition get_metrics (T : Tables) (patient_id : string) : Outcome MetricsBody :=
  if bool_decide (patient_id ∈ dom (metrics T)) then
    match subscript (metrics T) patient_id with
    | Returns entries => Returns (Entries entries)
    | Raises exc => Raises exc
    end
  else Returns not_found.

Definition get_status (T : Tables) : Outcome Status.t :=
  Returns (Status.Build "Patient_003" 80 "Vessel Segmentation"
                        "Processing Patient_003... 80%").

Definition get_server_status (T : Tables) : Outcome Server.t :=
  Returns (Server.Build true "v1.2.0" "Apple M2 Pro" "VascularNet v2.1").

(** ** Dispatch *)

(** The five routes registered on [app]. The path parameter of the metrics
    route is carried as an arbitrary string: the framework's router passes on
    only non-empty segments without a slash, so the handler is modelled on at
    least every id it can be called with. *)
Inductive Request : Type :=
  | GET_root
  | GET_api_patients
  | GET_api_metrics (patient_id : string)
  | GET_api_status
  | GET_api_server.

Inductive Response : Type :=
  | RootResponse (o : Outcome Root.t)
  | PatientsResponse (o : Outcome (list Patient.t))
  | MetricsResponse (o : Outcome MetricsBody)
  | StatusResponse (o : Outcome Status.t)
  | ServerResponse (o : Outcome Server.t).

(** One request: the handler's outcome and the globals it leaves behind. No
    handler assigns to a global or updates a table in place. *)
Definition handle (T : Tables) (req : Request) : Response * Tables :=
  match req with
  | GET_root => (RootResponse (root T), T)
  | GET_api_patients => (PatientsResponse (get_patients T), T)
  | GET_api_metrics patient_id => (MetricsResponse (get_metrics T patient_id), T)
  | GET_api_status => (StatusResponse (get_status T), T)
  | GET_api_server => (ServerResponse (get_server_status T), T)
  end.

(** A sequence of requests served one after the other. *)
Fixpoint serve (T : Tables) (reqs : list Request) : list Response * Tables :=
  match reqs with
  | [] => ([], T)
  | req :: rest =>
      let '(resp, T1) := handle T req in
      let '(resps, T2) := serve T1 rest in
      (resp :: resps, T2)
  end.

(** The globals after the process has served [reqs] since startup, and the
    responses it gave, one per request. *)
Definition tables_after (reqs : list Request) : Tables :=
  (serve startup reqs).2.

Definition responses (reqs : list Request) : list Response :=
  (serve startup reqs).1.

(** The ids listed in the patient table, in order. *)
Definition patient_ids (T : Tables) : list string :=
  Patient.id <$> patients T.

(** The key/value pair of [metrics_items] behind a hypothesis
    [H : (k, entries) ∈ metrics_items], one goal per pair. *)
Ltac metrics_item H :=
  unfold metrics_items in H;
  repeat (apply elem_of_cons in H as [H|H]; [injection H as -> ->|]);
  [..|by apply elem_of_nil in H].

(** The row of [patients_data] behind [H : r ∈ patients_data]. *)
Ltac patients_row H :=
  unfold patients_data in H;
  repeat (apply elem_of_cons in H as [H|H]; [subst|]);
  [..|by apply elem_of_nil in H].

(** ** Application metadata and failure of a response *)

(** [app = FastAPI(title=..., version=...)]. *)
Definition app_title : string := "VascularAI API".
Definition app_version : string := "1.2.0".

(** An exception escaped the handler: the framework answers such a request
    with an internal server error instead of a body. *)
Definition raised_outcome {A : Type} (o : Outcome A) : bool :=
  match o with
  | Returns _ => false
  | Raises _ => true
  end.

Definition raised (resp : Response) : bool :=
  match resp with
  | RootResponse o => raised_outcome o
  | PatientsResponse o => raised_outcome o
  | MetricsResponse o => raised_outcome o
  | StatusResponse o => raised_outcome o
  | ServerResponse o => raised_outcome o
  end.

(** ** Sanity checks on concrete requests *)

Example metrics_Patient_001 :
  get_metrics startup "Patient_001" =
  Returns (Entries [ {| metric := "clDice"; value := 0.92%Q |};
                     {| metric := "Dice Score"; value := 0.88%Q |};
                     {| metric := "IoU"; value := 0.81%Q |} ]).
Proof. vm_compute. reflexivity. Qed.

Example metrics_Patient_003 :
  get_metrics startup "Patient_003" = Returns not_found.
Proof. vm_compute. reflexivity. Qed.

(** ** General facts about the handlers *)

Section Handlers.
Variable T : Tables.

Lemma subscript_Some key entries :
  metrics T !! key = Some entries → subscript (metrics T) key = Returns entries.
Proof. intros H. unfold subscript. by rewrite H. Qed.

Lemma get_metrics_Some patient_id entries :
  metrics T !! patient_id = Some entries →
  get_metrics T patient_id = Returns (Entries entries).
Proof.
  intros H. unfold get_metrics.
  rewrite bool_decide_eq_true_2 by (apply elem_of_dom; eauto).
  by rewrite (subscript_Some _ _ H).
Qed.

Lemma get_metrics_None patient_id :
  metrics T !! patient_id = None →
  get_metrics T patient_id = Returns not_found.
Proof.
  intros H. unfold get_metrics.
  rewrite bool_decide_eq_false_2; [done|].
  rewrite elem_of_dom, H. by intros [? ?].
Qed.

Lemma handle_tables req : (handle T req).2 = T.
Proof. by destruct req. Qed.
End Handlers.

Lemma serve_tables T reqs : (serve T reqs).2 = T.
Proof.
  revert T. induction reqs as [|req rest IH]; intros T; [done|].
  simpl. pose proof (handle_tables T req) as Hh.
  destruct (handle T req) as [resp T1]. simpl in Hh. subst T1.
  specialize (IH T). destruct (serve T rest) as [resps T2]. by simpl in *.
Qed.

Lemma tables_after_startup reqs : tables_after reqs = startup.
Proof. apply serve_tables. Qed.

Lemma serve_responses T reqs : (serve T reqs).1 = (λ req, (handle T req).1) <$> reqs.
Proof.
  induction reqs as [|req rest IH]; [done|].
  simpl. pose proof (handle_tables T req) as Hh.
  destruct (handle T req) as [resp T1]. simpl in Hh. subst T1.
  destruct (serve T rest) as [resps T2]. simpl in *. by rewrite IH.
Qed.

Lemma responses_lookup reqs i req :
  reqs !! i = Some req → responses reqs !! i = Some (handle startup req).1.
Proof.
  intros H. unfold responses. rewrite serve_responses, list_lookup_fmap.
  by rewrite H.
Qed.

(** ** Facts about the two tables *)

Lemma metrics_items_NoDup : NoDup metrics_items.*1.
Proof. apply (bool_decide_unpack _). by vm_compute. Qed.

Lemma metrics_data_lookup k entries :
  metrics_data !! k = Some entries ↔ (k, entries) ∈ metrics_items.
Proof. symmetry. apply elem_of_list_to_map, metrics_items_NoDup. Qed.

Lemma metrics_data_dom :
  dom metrics_data =
  ({[ "Patient_001"; "Patient_002"; "Patient_004"; "Patient_005" ]} : gset string).
Proof.
  unfold metrics_data. rewrite dom_list_to_map_L. simpl. set_solver.
Qed.

Lemma metrics_data_key k :
  k ∈ dom metrics_data ↔ ∃ entries, (k, entries) ∈ metrics_items.
Proof.
  rewrite elem_of_dom. unfold is_Some.
  by setoid_rewrite metrics_data_lookup.
Qed.

(** ** The metrics endpoint *)

(** C1. For every patient id that is a key of [metrics_data], whatever the
    requests served before, [get_metrics] returns the entry list written for
    that key in the dict literal, itself and as a whole: same entries, same
    order, nothing dropped or changed. *)
Theorem get_metrics_registered (reqs : list Request) (patient_id : string) :
  patient_id ∈ dom metrics_data →
  ∃ entries,
    (patient_id, entries) ∈ metrics_items ∧
    metrics_data !! patient_id = Some entries ∧
    get_metrics (tables_after reqs) patient_id = Returns (Entries entries).
Proof.
  intros [entries Hin]%metrics_data_key. exists entries.
  pose proof Hin as Hlook%metrics_data_lookup.
  split_and!; [done..|].
  rewrite tables_after_startup. by apply get_metrics_Some.
Qed.

Lemma get_metrics_registered_witness :
  "Patient_001" ∈ dom metrics_data ∧
  ∃ entries,
    ("Patient_001", entries) ∈ metrics_items ∧
    metrics_data !! "Patient_001" = Some entries ∧
    get_metrics (tables_after [GET_api_status]) "Patient_001" =
      Returns (Entries entries).
Proof.
  assert (Hkey : "Patient_001" ∈ dom metrics_data).
  { apply (bool_decide_unpack _). vm_compute. exact I. }
  split; [exact Hkey|].
  exact (get_metrics_registered [GET_api_status] "Patient_001" Hkey).
Defined.

(** C2. For every string that is not a key of [metrics_data], [get_metrics]
    returns the body [{"error": "Patient not found"}]; this covers
    ["Patient_003"], which is listed in [patients_data], the empty string and
    strings that are no patient id at all. The handler fails in no other way:
    the error body is returned for no key of [metrics_data], it never raises,
    and whenever its outcome is not that error body, it is the entry list
    registered for the key. *)
Theorem get_metrics_not_found :
  (∀ (reqs : list Request) (s : string),
     s ∉ dom metrics_data ↔
     get_metrics (tables_after reqs) s = Returns not_found) ∧
  ("Patient_003" ∈ patient_ids startup ∧
   get_metrics startup "Patient_003" = Returns not_found) ∧
  get_metrics startup "" = Returns not_found ∧
  get_metrics startup "../etc/passwd" = Returns not_found ∧
  (∀ (reqs : list Request) (s : string),
     get_metrics (tables_after reqs) s ≠ Returns not_found →
     s ∈ dom metrics_data ∧
     ∃ entries, metrics_data !! s = Some entries ∧
       get_metrics (tables_after reqs) s = Returns (Entries entries)).
Proof.
  split_and!.
  - intros reqs s. rewrite tables_after_startup, not_elem_of_dom. split.
    + apply (get_metrics_None startup).
    + intros Hget.
      destruct (metrics_data !! s) as [entries|] eqn:Hlook; [|done].
      by rewrite (get_metrics_Some startup s entries Hlook) in Hget.
  - apply (bool_decide_unpack _). by vm_compute.
  - by vm_compute.
  - by vm_compute.
  - by vm_compute.
  - intros reqs s. rewrite tables_after_startup. intros Hne.
    destruct (metrics_data !! s) as [entries|] eqn:Hlook.
    + split; [apply elem_of_dom; eauto|].
      exists entries. split; [done|]. by apply get_metrics_Some.
    + destruct Hne. by apply get_metrics_None.
Qed.

Lemma get_metrics_not_found_witness :
  ("Patient_006" ∉ dom metrics_data) ∧
  get_metrics (tables_after [GET_api_patients]) "Patient_006" = Returns not_found.
Proof.
  assert (Hkey : "Patient_006" ∉ dom metrics_data).
  { apply (bool_decide_unpack _). vm_compute. exact I. }
  split; [exact Hkey|].
  exact (proj1 (proj1 get_metrics_not_found [GET_api_patients] "Patient_006")
           Hkey).
Defined.

(** ** The patient list *)

(** C3. Whatever the requests served before, [get_patients] returns the same
    list, the six rows of [patients_data] in the order they are written; its
    first row has id ["Patient_001"], status ["completed"] and inference time
    [4.2]. *)
Theorem get_patients_constant :
  (∀ reqs : list Request,
     get_patients (tables_after reqs) = Returns patients_data) ∧
  (∀ (reqs : list Request) (i : nat),
     reqs !! i = Some GET_api_patients →
     responses reqs !! i = Some (PatientsResponse (Returns patients_data))) ∧
  length patients_data = 6%nat ∧
  (Patient.id <$> patients_data) =
    ["Patient_001"; "Patient_002"; "Patient_003";
     "Patient_004"; "Patient_005"; "Patient_006"] ∧
  ∃ first rest,
    patients_data = first :: rest ∧
    Patient.id first = "Patient_001" ∧
    Patient.status first = "completed" ∧
    Patient.inferenceTime first = Some 4.2%Q.
Proof.
  split_and!.
  - intros reqs. by rewrite tables_after_startup.
  - intros reqs i Hi. by rewrite (responses_lookup _ _ _ Hi).
  - done.
  - done.
  - by eexists _, _.
Qed.

Lemma get_patients_constant_witness :
  [GET_api_patients; GET_api_metrics "Patient_001"; GET_api_patients] !! 2%nat =
    Some GET_api_patients ∧
  responses [GET_api_patients; GET_api_metrics "Patient_001"; GET_api_patients]
    !! 2%nat = Some (PatientsResponse (Returns patients_data)).
Proof.
  split; [reflexivity|].
  exact (proj1 (proj2 get_patients_constant)
           [GET_api_patients; GET_api_metrics "Patient_001"; GET_api_patients]
           2%nat eq_refl).
Defined.

(** ** The two fixed payloads *)

(** C4. [get_status] returns the payload with patient id ["Patient_003"],
    progress [80], stage ["Vessel Segmentation"] and message
    ["Processing Patient_003... 80%"], whatever the two tables hold: it reads
    neither of them. *)
Theorem get_status_fixed (T : Tables) :
  get_status T =
  Returns {| Status.patientId := "Patient_003";
             Status.progress := 80;
             Status.stage := "Vessel Segmentation";
             Status.message := "Processing Patient_003... 80%" |}.
Proof. reflexivity. Qed.

(** C5. [get_status] and [get_server_status] are constants: they give the
    same payload in every state of the tables, and in any sequence of requests
    two calls of the same one of these two routes, consecutive or not, receive
    the same response. *)
Theorem status_routes_deterministic :
  (∀ T T' : Tables,
     get_status T = get_status T' ∧
     get_server_status T = get_server_status T') ∧
  (∀ (reqs : list Request) (i j : nat) (req : Request),
     req = GET_api_status ∨ req = GET_api_server →
     reqs !! i = Some req →
     reqs !! j = Some req →
     ∃ resp, responses reqs !! i = Some resp ∧ responses reqs !! j = Some resp).
Proof.
  split.
  - by intros T T'.
  - intros reqs i j req _ Hi Hj. exists (handle startup req).1.
    split; by apply responses_lookup.
Qed.

Lemma status_routes_deterministic_witness :
  ∃ resp,
    responses [GET_api_status; GET_api_status] !! 0%nat = Some resp ∧
    responses [GET_api_status; GET_api_status] !! 1%nat = Some resp.
Proof.
  exact (proj2 status_routes_deterministic
           [GET_api_status; GET_api_status] 0%nat 1%nat GET_api_status
           (or_introl eq_refl) eq_refl eq_refl).
Defined.

(** ** Invariants of the two tables *)

(** C6. At every point of the life of the process, that is after any sequence
    of requests, every key of the metrics table is the id of a row of the
    patient table; no request changes either table. *)
Theorem metrics_keys_are_patients (reqs : list Request) :
  tables_after reqs = startup ∧
  ∀ k : string,
    k ∈ dom (metrics (tables_after reqs)) →
    ∃ r, r ∈ patients (tables_after reqs) ∧ Patient.id r = k.
Proof.
  rewrite tables_after_startup. simpl. split; [done|].
  intros k [entries Hin]%metrics_data_key.
  enough (Hk : k ∈ Patient.id <$> patients_data).
  { apply list_elem_of_fmap in Hk as (r & -> & Hr). eauto. }
  metrics_item Hin; apply (bool_decide_unpack _); by vm_compute.
Qed.

Lemma metrics_keys_are_patients_witness :
  "Patient_004" ∈ dom (metrics (tables_after [GET_api_metrics "Patient_004"])) ∧
  tables_after [GET_api_metrics "Patient_004"] = startup ∧
  ∃ r, r ∈ patients (tables_after [GET_api_metrics "Patient_004"]) ∧
       Patient.id r = "Patient_004".
Proof.
  assert (Hkey : "Patient_004" ∈
                 dom (metrics (tables_after [GET_api_metrics "Patient_004"]))).
  { apply (bool_decide_unpack _). vm_compute. exact I. }
  split; [exact Hkey|].
  split; [exact (proj1 (metrics_keys_are_patients
                          [GET_api_metrics "Patient_004"]))|].
  exact (proj2 (metrics_keys_are_patients [GET_api_metrics "Patient_004"])
           "Patient_004" Hkey).
Defined.

(** C7. In every row of [patients_data] the inference time is present exactly
    when the status is ["completed"]; a row whose status is ["processing"] or
    ["queued"] has none. *)
Theorem inferenceTime_iff_completed (r : Patient.t) :
  r ∈ patients_data →
  (is_Some (Patient.inferenceTime r) ↔ Patient.status r = "completed") ∧
  (Patient.status r = "processing" ∨ Patient.status r = "queued" →
   Patient.inferenceTime r = None).
Proof.
  intros Hr. patients_row Hr; simpl;
    (split; [split; [done || by eauto | done || by intros ?%is_Some_None]
            | done || by intros [?|?]]).
Qed.

Lemma inferenceTime_iff_completed_witness :
  Patient.Build "Patient_003" "Robert Chen" 58 "processing" None "Processing"
                "2026-03-01" ∈ patients_data ∧
  (is_Some (None : option Q) ↔ "processing" = "completed") ∧
  ("processing" = "processing" ∨ "processing" = "queued" →
   (None : option Q) = None).
Proof.
  assert (Hrow : Patient.Build "Patient_003" "Robert Chen" 58 "processing" None
                   "Processing" "2026-03-01" ∈ patients_data).
  { unfold patients_data. do 2 apply list_elem_of_further.
    apply list_elem_of_here. }
  split; [exact Hrow|].
  exact (inferenceTime_iff_completed _ Hrow).
Defined.

(** C8. The keys of [metrics_data] are exactly the ids of the rows of
    [patients_data] whose status is ["completed"]: a row has a metrics entry
    if and only if it is completed. *)
Theorem metrics_keys_exactly_completed :
  (∀ k : string,
     k ∈ dom metrics_data ↔
     ∃ r, r ∈ patients_data ∧ Patient.id r = k ∧
          Patient.status r = "completed") ∧
  (∀ r : Patient.t,
     r ∈ patients_data →
     (Patient.id r ∈ dom metrics_data ↔ Patient.status r = "completed")).
Proof.
  split.
  - intros k. rewrite metrics_data_dom. split.
    + intros Hk. apply elem_of_union in Hk as [Hk|Hk];
        [apply elem_of_union in Hk as [Hk|Hk];
           [apply elem_of_union in Hk as [Hk|Hk]|]|];
        apply elem_of_singleton in Hk as ->;
        eexists (Patient.Build _ _ _ _ _ _ _);
        (split; [|split; reflexivity]); unfold patients_data.
      * apply list_elem_of_here.
      * apply list_elem_of_further, list_elem_of_here.
      * do 3 apply list_elem_of_further. apply list_elem_of_here.
      * do 4 apply list_elem_of_further. apply list_elem_of_here.
    + intros (r & Hr & <- & Hst). patients_row Hr; simpl in *;
        first [discriminate Hst | set_solver].
  - intros r Hr. rewrite metrics_data_dom.
    patients_row Hr; simpl; (split; [intros Hk|intros Hst]);
      first [done | set_solver].
Qed.

Lemma metrics_keys_exactly_completed_witness :
  Patient.Build "Patient_006" "Sarah Wilson" 68 "queued" None "Queued"
                "2026-03-01" ∈ patients_data ∧
  ("Patient_006" ∈ dom metrics_data ↔ "queued" = "completed").
Proof.
  assert (Hrow : Patient.Build "Patient_006" "Sarah Wilson" 68 "queued" None
                   "Queued" "2026-03-01" ∈ patients_data).
  { unfold patients_data. do 5 apply list_elem_of_further.
    apply list_elem_of_here. }
  split; [exact Hrow|].
  exact (proj2 metrics_keys_exactly_completed _ Hrow).
Defined.

(** C9. Every key of [metrics_data] maps to exactly three entries, named
    ["clDice"], ["Dice Score"] and ["IoU"] in that order; so the list is never
    empty, and neither is any entry list [get_metrics] returns. *)
Theorem metrics_entries_shape :
  (∀ (k : string) (entries : list MetricEntry),
     metrics_data !! k = Some entries →
     entries ≠ [] ∧ length entries = 3%nat ∧
     (metric <$> entries) = ["clDice"; "Dice Score"; "IoU"]) ∧
  (∀ (reqs : list Request) (s : string) (entries : list MetricEntry),
     get_metrics (tables_after reqs) s = Returns (Entries entries) →
     entries ≠ []).
Proof.
  assert (Hshape : ∀ k entries, metrics_data !! k = Some entries →
            entries ≠ [] ∧ length entries = 3%nat ∧
            (metric <$> entries) = ["clDice"; "Dice Score"; "IoU"]).
  { intros k entries Hin%metrics_data_lookup. by metrics_item Hin. }
  split; [exact Hshape|].
  intros reqs s entries. rewrite tables_after_startup.
  destruct (metrics_data !! s) as [found|] eqn:Hlook.
  - rewrite (get_metrics_Some startup _ _ Hlook). intros [= <-].
    by apply (Hshape s).
  - by rewrite (get_metrics_None startup _ Hlook).
Qed.

Lemma metrics_entries_shape_witness :
  metrics_data !! "Patient_002" =
    Some [ {| metric := "clDice"; value := 0.89%Q |};
           {| metric := "Dice Score"; value := 0.85%Q |};
           {| metric := "IoU"; value := 0.78%Q |} ] ∧
  ∀ entries,
    metrics_data !! "Patient_002" = Some entries →
    entries ≠ [] ∧ length entries = 3%nat ∧
    (metric <$> entries) = ["clDice"; "Dice Score"; "IoU"].
Proof.
  split; [vm_compute; reflexivity|].
  exact (proj1 metrics_entries_shape "Patient_002").
Defined.

(** C10. Every value stored in [metrics_data], read as the exact decimal
    written in the table, lies between 0 and 1 inclusive. *)
Theorem metric_values_in_unit_interval
    (k : string) (entries : list MetricEntry) (e : MetricEntry) :
  metrics_data !! k = Some entries →
  e ∈ entries →
  (0 <= value e)%Q ∧ (value e <= 1)%Q.
Proof.
  intros Hin%metrics_data_lookup He.
  metrics_item Hin;
    repeat (apply elem_of_cons in He as [->|He]);
    try (by apply elem_of_nil in He);
    unfold Qle; simpl; lia.
Qed.

Lemma metric_values_in_unit_interval_witness :
  metrics_data !! "Patient_004" =
    Some [ {| metric := "clDice"; value := 0.45%Q |};
           {| metric := "Dice Score"; value := 0.38%Q |};
           {| metric := "IoU"; value := 0.30%Q |} ] ∧
  {| metric := "IoU"; value := 0.30%Q |} ∈
    [ {| metric := "clDice"; value := 0.45%Q |};
      {| metric := "Dice Score"; value := 0.38%Q |};
      {| metric := "IoU"; value := 0.30%Q |} ] ∧
  (0 <= 0.30)%Q ∧ (0.30 <= 1)%Q.
Proof.
  assert (Hlook : metrics_data !! "Patient_004" =
            Some [ {| metric := "clDice"; value := 0.45%Q |};
                   {| metric := "Dice Score"; value := 0.38%Q |};
                   {| metric := "IoU"; value := 0.30%Q |} ]).
  { vm_compute. reflexivity. }
  assert (Hmem : {| metric := "IoU"; value := 0.30%Q |} ∈
            [ {| metric := "clDice"; value := 0.45%Q |};
              {| metric := "Dice Score"; value := 0.38%Q |};
              {| metric := "IoU"; value := 0.30%Q |} ]).
  { do 2 apply list_elem_of_further. apply list_elem_of_here. }
  split; [exact Hlook|]. split; [exact Hmem|].
  exact (metric_values_in_unit_interval "Patient_004" _ _ Hlook Hmem).
Defined.


(** * Further properties of the handlers *)

(** ** [get_metrics] over an arbitrary metrics table *)

Lemma get_metrics_cases (T : Tables) (s : string) :
  (∃ entries, metrics T !! s = Some entries ∧
              get_metrics T s = Returns (Entries entries)) ∨
  (metrics T !! s = None ∧ get_metrics T s = Returns not_found).
Proof.
  destruct (metrics T !! s) as [entries|] eqn:Hlook.
  - left. exists entries. split; [done|]. by apply get_metrics_Some.
  - right. split; [done|]. by apply get_metrics_None.
Qed.

(** X1. Whatever the metrics table holds and whatever id is asked for,
    [get_metrics] returns a body: the membership test guards the subscript, so
    its [KeyError] never escapes. *)
Theorem get_metrics_never_raises (T : Tables) (s : string) :
  ∃ body, get_metrics T s = Returns body.
Proof.
  destruct (get_metrics_cases T s) as [(entries & _ & ->)|[_ ->]]; eauto.
Qed.

(** X2. For any metrics table, [get_metrics] answers with an entry list
    exactly when that list is what the table holds for the id, and with the
    not-found body exactly when the table has no such key. *)
Theorem get_metrics_characterised (T : Tables) (s : string) :
  (∀ entries : list MetricEntry,
     get_metrics T s = Returns (Entries entries) ↔
     metrics T !! s = Some entries) ∧
  (get_metrics T s = Returns not_found ↔ s ∉ dom (metrics T)).
Proof.
  rewrite not_elem_of_dom.
  destruct (get_metrics_cases T s) as [(found & Hlook & Hget)|[Hlook Hget]];
    rewrite Hget, Hlook; split; try intros entries; split;
    first [done | by intros [= ->] | by intros [= <-]].
Qed.

(** X3. The handler tests membership, not emptiness: an id registered with an
    empty entry list is answered with the empty array, which is not the
    not-found body. *)
Theorem get_metrics_empty_list (T : Tables) (s : string) :
  metrics T !! s = Some [] →
  get_metrics T s = Returns (Entries []) ∧
  get_metrics T s ≠ Returns not_found.
Proof.
  intros Hlook. rewrite (get_metrics_Some T s [] Hlook). by split.
Qed.

Lemma get_metrics_empty_list_witness :
  metrics {| patients := patients_data;
             metrics := <["Patient_003" := []]> metrics_data |}
    !! "Patient_003" = Some [] ∧
  get_metrics {| patients := patients_data;
                 metrics := <["Patient_003" := []]> metrics_data |}
    "Patient_003" = Returns (Entries []) ∧
  get_metrics {| patients := patients_data;
                 metrics := <["Patient_003" := []]> metrics_data |}
    "Patient_003" ≠ Returns not_found.
Proof.
  assert (Hlook : metrics {| patients := patients_data;
                             metrics := <["Patient_003" := []]> metrics_data |}
                    !! "Patient_003" = Some []).
  { simpl. apply lookup_insert_eq. }
  split; [exact Hlook|].
  exact (get_metrics_empty_list _ "Patient_003" Hlook).
Defined.

(** ** How the endpoints fit together *)

(** X4. Listing, then fetching: for every row [get_patients] returns, asking
    [get_metrics] for the row's id gives three entries when the row is
    completed and the not-found body when it is not. *)
Theorem list_then_fetch
    (reqs : list Request) (rows : list Patient.t) (r : Patient.t) :
  get_patients (tables_after reqs) = Returns rows →
  r ∈ rows →
  (Patient.status r = "completed" →
   ∃ entries,
     get_metrics (tables_after reqs) (Patient.id r) = Returns (Entries entries) ∧
     length entries = 3%nat) ∧
  (Patient.status r ≠ "completed" →
   get_metrics (tables_after reqs) (Patient.id r) = Returns not_found).
Proof.
  rewrite tables_after_startup. intros [= <-] Hr. simpl in Hr.
  patients_row Hr; simpl; (split; [intros Hst|intros Hst]);
    first [ discriminate Hst
          | by destruct Hst
          | by vm_compute
          | eexists; split; [by vm_compute|reflexivity] ].
Qed.

Lemma list_then_fetch_witness :
  get_patients (tables_after [GET_root]) = Returns patients_data ∧
  Patient.Build "Patient_004" "Maria Garcia" 61 "completed" (Some 5.1%Q)
                "Failed" "2026-02-27" ∈ patients_data ∧
  ("completed" = "completed" →
   ∃ entries,
     get_metrics (tables_after [GET_root]) "Patient_004" =
       Returns (Entries entries) ∧
     length entries = 3%nat) ∧
  ("completed" ≠ "completed" →
   get_metrics (tables_after [GET_root]) "Patient_004" = Returns not_found).
Proof.
  assert (Hrow : Patient.Build "Patient_004" "Maria Garcia" 61 "completed"
                   (Some 5.1%Q) "Failed" "2026-02-27" ∈ patients_data).
  { unfold patients_data. do 3 apply list_elem_of_further.
    apply list_elem_of_here. }
  split; [reflexivity|]. split; [exact Hrow|].
  exact (list_then_fetch [GET_root] patients_data _ eq_refl Hrow).
Defined.

(** X5. The job [get_status] reports belongs to a listed patient: its
    patient id is the id of the one row of [patients_data] whose status is
    ["processing"], its message names the same id, its progress is a
    percentage, and [get_metrics] has nothing for that id yet. *)
Theorem get_status_names_processing_patient (T : Tables) :
  ∃ payload,
    get_status T = Returns payload ∧
    Status.message payload =
      "Processing " ++ Status.patientId payload ++ "... 80%" ∧
    (0 ≤ Status.progress payload ≤ 100)%Z ∧
    get_metrics startup (Status.patientId payload) = Returns not_found ∧
    ∃ r, r ∈ patients_data ∧
         Patient.id r = Status.patientId payload ∧
         Patient.status r = "processing" ∧
         ∀ r', r' ∈ patients_data → Patient.status r' = "processing" → r' = r.
Proof.
  eexists. split; [reflexivity|]. simpl.
  split; [reflexivity|]. split; [lia|]. split; [by vm_compute|].
  exists (Patient.Build "Patient_003" "Robert Chen" 58 "processing" None
                        "Processing" "2026-03-01").
  split_and!; [|done|done|].
  - unfold patients_data. do 2 apply list_elem_of_further.
    apply list_elem_of_here.
  - intros r' Hr' Hst. patients_row Hr'; simpl in Hst;
      first [discriminate Hst|reflexivity].
Qed.

(** X6. The version is written three times in the module and the three
    agree: the message of [root] is the application title followed by ["v"]
    and the application version, and the version [get_server_status] reports
    is ["v"] followed by that same version. *)
Theorem version_strings_agree (T : Tables) :
  ∃ greeting info,
    root T = Returns greeting ∧
    get_server_status T = Returns info ∧
    Root.message greeting = app_title ++ " v" ++ app_version ∧
    Server.version info = "v" ++ app_version ∧
    Root.message greeting = app_title ++ " " ++ Server.version info.
Proof. eexists _, _. by split_and!. Qed.

(** ** Serving sequences of requests *)

(** X7. Requests do not influence one another: every request gets one
    response, and the responses to a sequence served after another sequence
    are the responses it gets when served alone from startup. *)
Theorem responses_app (before after : list Request) :
  length (responses before) = length before ∧
  responses (before ++ after)%list =
    (responses before ++ responses after)%list.
Proof.
  unfold responses. rewrite !serve_responses. split.
  - apply length_fmap.
  - apply fmap_app.
Qed.

(** X8. No request to any of the five routes ends in an exception: every
    response in every sequence carries a body. *)
Theorem no_response_raises (reqs : list Request) (resp : Response) :
  resp ∈ responses reqs → raised resp = false.
Proof.
  unfold responses. rewrite serve_responses.
  intros (req & -> & _)%list_elem_of_fmap.
  destruct req as [| |s| |]; simpl; try reflexivity.
  by destruct (get_metrics_cases startup s) as [(entries & _ & ->)|[_ ->]].
Qed.

Lemma no_response_raises_witness :
  MetricsResponse (Returns not_found) ∈
    responses [GET_api_status; GET_api_metrics "Patient_003"] ∧
  raised (MetricsResponse (Returns not_found)) = false.
Proof.
  assert (Hin : MetricsResponse (Returns not_found) ∈
                responses [GET_api_status; GET_api_metrics "Patient_003"]).
  { apply list_elem_of_further, list_elem_of_here. }
  split; [exact Hin|].
  exact (no_response_raises [GET_api_status; GET_api_metrics "Patient_003"]
           _ Hin).
Defined.

(** ** Further invariants of the tables *)

(** X9. A patient id identifies one row: no id occurs twice in
    [patients_data], so two rows with the same id are the same row. *)
Theorem patient_ids_unique :
  NoDup (patient_ids startup) ∧
  ∀ r1 r2 : Patient.t,
    r1 ∈ patients_data → r2 ∈ patients_data →
    Patient.id r1 = Patient.id r2 → r1 = r2.
Proof.
  split.
  - apply (bool_decide_unpack _). by vm_compute.
  - intros r1 r2 H1 H2 Hid.
    patients_row H1; patients_row H2; simpl in Hid;
      first [reflexivity|discriminate Hid].
Qed.

Lemma patient_ids_unique_witness :
  Patient.Build "Patient_001" "John Doe" 65 "completed" (Some 4.2%Q) "Success"
                "2026-02-28" ∈ patients_data ∧
  Patient.Build "Patient_001" "John Doe" 65 "completed" (Some 4.2%Q) "Success"
                "2026-02-28" =
  Patient.Build "Patient_001" "John Doe" 65 "completed" (Some 4.2%Q) "Success"
                "2026-02-28".
Proof.
  assert (Hrow : Patient.Build "Patient_001" "John Doe" 65 "completed"
                   (Some 4.2%Q) "Success" "2026-02-28" ∈ patients_data).
  { apply list_elem_of_here. }
  split; [exact Hrow|].
  exact (proj2 patient_ids_unique _ _ Hrow Hrow eq_refl).
Defined.

(** X10. In every row of [patients_data] the status is one of ["completed"],
    ["processing"], ["queued"] and the result goes with it: a processing row
    has result ["Processing"], a queued row ["Queued"], and a completed row
    ["Success"] or ["Failed"], and in no other case. *)
Theorem status_and_result_agree (r : Patient.t) :
  r ∈ patients_data →
  (Patient.status r = "completed" ∨ Patient.status r = "processing" ∨
   Patient.status r = "queued") ∧
  (Patient.status r = "processing" ↔ Patient.result r = "Processing") ∧
  (Patient.status r = "queued" ↔ Patient.result r = "Queued") ∧
  (Patient.status r = "completed" ↔
   Patient.result r = "Success" ∨ Patient.result r = "Failed").
Proof.
  intros Hr. patients_row Hr; simpl; split_and!; try split;
    first [ done | by left | by right; left | by right; right
          | by intros [?|?] | by intros _; left | by intros _; right ].
Qed.

Lemma status_and_result_agree_witness :
  Patient.Build "Patient_004" "Maria Garcia" 61 "completed" (Some 5.1%Q)
                "Failed" "2026-02-27" ∈ patients_data ∧
  ("completed" = "completed" ↔ "Failed" = "Success" ∨ "Failed" = "Failed").
Proof.
  assert (Hrow : Patient.Build "Patient_004" "Maria Garcia" 61 "completed"
                   (Some 5.1%Q) "Failed" "2026-02-27" ∈ patients_data).
  { unfold patients_data. do 3 apply list_elem_of_further.
    apply list_elem_of_here. }
  split; [exact Hrow|].
  exact (proj2 (proj2 (proj2 (status_and_result_agree _ Hrow)))).
Defined.

(** X11. Under every key of [metrics_data] the three values are listed in
    strictly decreasing order: the clDice value is above the Dice score, which
    is above the IoU. *)
Theorem metric_values_decrease (k : string) (entries : list MetricEntry) :
  metrics_data !! k = Some entries →
  ∃ c d i : Q,
    entries = [ {| metric := "clDice"; value := c |};
                {| metric := "Dice Score"; value := d |};
                {| metric := "IoU"; value := i |} ] ∧
    (i < d)%Q ∧ (d < c)%Q.
Proof.
  intros Hin%metrics_data_lookup.
  metrics_item Hin; eexists _, _, _; (split; [reflexivity|]);
    unfold Qlt; simpl; lia.
Qed.

Lemma metric_values_decrease_witness :
  metrics_data !! "Patient_005" =
    Some [ {| metric := "clDice"; value := 0.95%Q |};
           {| metric := "Dice Score"; value := 0.91%Q |};
           {| metric := "IoU"; value := 0.85%Q |} ] ∧
  ∃ c d i : Q,
    [ {| metric := "clDice"; value := 0.95%Q |};
      {| metric := "Dice Score"; value := 0.91%Q |};
      {| metric := "IoU"; value := 0.85%Q |} ] =
    [ {| metric := "clDice"; value := c |};
      {| metric := "Dice Score"; value := d |};
      {| metric := "IoU"; value := i |} ] ∧
    (i < d)%Q ∧ (d < c)%Q.
Proof.
  assert (Hlook : metrics_data !! "Patient_005" =
            Some [ {| metric := "clDice"; value := 0.95%Q |};
                   {| metric := "Dice Score"; value := 0.91%Q |};
                   {| metric := "IoU"; value := 0.85%Q |} ]).
  { vm_compute. reflexivity. }
  split; [exact Hlook|].
  exact (metric_values_decrease "Patient_005" _ Hlook).
Defined.
